(** * Auth dashboard back end: authentication, identity resolution and
    owner-scoped task operations.

    Shallow embedding of [app/crud.py], [app/dependencies.py],
    [app/routes/auth.py], [app/routes/tasks.py], [app/routes/users.py],
    [app/schemas.py], [app/config.py] and the origin list of [app/main.py].
    The relational store is a pair of row lists kept in
    storage order; a query is a [filter] over the rows, [.first()] is the
    head of the filtered rows, [.offset(k).limit(n)] is [skipn] followed by
    [firstn].  A handler that raises [HTTPException] returns [Raised]. *)

From Stdlib Require Import ZArith List String Ascii Bool Lia PeanoNat.
Import ListNotations.
Local Open Scope string_scope.
Local Open Scope list_scope.
Local Open Scope Z_scope.

(** ** Rows and schemas *)

(** A row of the users table, with the attributes read by the schemas and
    by [crud.py]: [UserResponse] (id, email, full_name, is_active,
    created_at) and [hashed_password]. *)
Record User := mkUser {
  user_id : Z;
  email : string;
  full_name : string;
  hashed_password : string;
  is_active : bool;
  user_created_at : Z
}.

(** A row of the tasks table ([TaskResponse] lists its attributes).  The
    three text columns are written by [setattr] in [update_task] with
    whatever value the request carries, [None] included, hence [option]. *)
Record Task := mkTask {
  task_id : Z;
  title : option string;
  description : option string;
  status : option string;
  owner_id : Z;
  created_at : Z;
  updated_at : Z
}.

(** schemas.py *)
Record UserCreate := mkUserCreate {
  uc_email : string;
  uc_full_name : string;
  uc_password : string
}.

Record TaskCreate := mkTaskCreate {
  tc_title : string;
  tc_description : option string
}.

(** [TaskUpdate]: every field is [Optional[str] = None].  A field is either
    unset (outer [None]), or set by the request to a string or to null
    ([Some (Some s)], [Some None]); [model_dump(exclude_unset=True)] keeps
    exactly the set ones. *)
Record TaskUpdate := mkTaskUpdate {
  tu_title : option (option string);
  tu_description : option (option string);
  tu_status : option (option string)
}.

Record Token := mkToken {
  access_token : string;
  token_type : string
}.

Record LoginRequest := mkLoginRequest {
  lr_email : string;
  lr_password : string
}.

(** config.py: the settings read by the modelled code, with their defaults. *)
Record Settings := mkSettings {
  SECRET_KEY : string;
  ALGORITHM : string;
  ACCESS_TOKEN_EXPIRE_MINUTES : Z
}.

Definition default_settings : Settings :=
  mkSettings "your-secret-key-change-in-production" "HS256" 30.

(** ** Outcomes *)

Record HTTPException := mkHTTPException {
  status_code : Z;
  detail : string
}.

Inductive Outcome (A : Type) : Type :=
| Returned (a : A)
| Raised (e : HTTPException).
Arguments Returned {A} a.
Arguments Raised {A} e.

Definition HTTP_400_BAD_REQUEST : Z := 400.
Definition HTTP_401_UNAUTHORIZED : Z := 401.

(** ** The store *)

(** The session's view of the database: both tables in storage order and
    the next primary key each table hands out on insert. *)
Record DB := mkDB {
  users : list User;
  tasks : list Task;
  next_user_id : Z;
  next_task_id : Z
}.

Definition empty_db : DB := mkDB [] [] 1 1.

Definition first {A : Type} (rows : list A) : option A :=
  match rows with
  | [] => None
  | r :: _ => Some r
  end.

(** ** LIKE matching, as the engine evaluates [Task.title.ilike(pattern)] *)

Definition lower (c : ascii) : ascii :=
  let n := nat_of_ascii c in
  if (Nat.leb 65 n && Nat.leb n 90)%bool then ascii_of_nat (n + 32) else c.

(** [%] matches any run of characters, [_] any single character, every other
    character matches itself up to ASCII case. *)
Fixpoint like (p : list ascii) : list ascii -> bool :=
  match p with
  | [] => fun s => match s with [] => true | _ :: _ => false end
  | c :: p' =>
      if Ascii.eqb c "%"%char then
        fix star (s : list ascii) : bool :=
          (like p' s ||
           match s with
           | [] => false
           | _ :: s' => star s'
           end)%bool
      else if Ascii.eqb c "_"%char then
        fun s => match s with [] => false | _ :: s' => like p' s' end
      else
        fun s =>
          match s with
          | [] => false
          | d :: s' => (Ascii.eqb (lower c) (lower d) && like p' s')%bool
          end
  end.

(** A NULL column never satisfies the predicate. *)
Definition ilike (column : option string) (pattern : string) : bool :=
  match column with
  | None => false
  | Some s => like (list_ascii_of_string pattern) (list_ascii_of_string s)
  end.

Definition truthy (s : string) : bool :=
  match s with
  | EmptyString => false
  | String _ _ => true
  end.

(** ** Collaborators imported by the modelled files *)

(** [app.auth], imported by crud.py, dependencies.py and routes/auth.py.
    [create_access_token sub minutes] stands for
    [create_access_token(data={"sub": sub}, expires_delta=timedelta(minutes=minutes))];
    [decode_token] returns the subject of a token it accepts and [None]
    otherwise. *)
Class AuthModule := {
  get_password_hash : string -> string;
  verify_password : string -> string -> bool;
  create_access_token : string -> Z -> string;
  decode_token : string -> option string
}.

(** [app.models]: what the column declarations of [User] and [Task] fill in
    when the code leaves an attribute out: the defaults on insert, read at
    clock value [utcnow], and the value [updated_at] takes when a loaded row
    (first argument) is flushed with new contents (second argument). *)
Class ModelDefaults := {
  default_is_active : bool;
  default_status : option string;
  utcnow : Z;
  onupdate_updated_at : Task -> Task -> Z
}.

Section App.

Context {auth : AuthModule} {models : ModelDefaults}.
Variable settings : Settings.

(** ** crud.py *)

Definition create_user (db : DB) (user : UserCreate) : User * DB :=
  let db_user :=
    mkUser (next_user_id db) (uc_email user) (uc_full_name user)
           (get_password_hash (uc_password user)) default_is_active utcnow in
  (db_user,
   mkDB (users db ++ [db_user]) (tasks db)
        (next_user_id db + 1) (next_task_id db)).

Definition get_user_by_email (db : DB) (e : string) : option User :=
  first (filter (fun u => String.eqb (email u) e) (users db)).

(** Returns [False] (here [None]) or the user. *)
Definition authenticate_user (db : DB) (e password : string) : option User :=
  match get_user_by_email db e with
  | None => None
  | Some user =>
      if negb (verify_password password (hashed_password user))
      then None
      else Some user
  end.

Definition create_task (db : DB) (task : TaskCreate) (owner : Z) : Task * DB :=
  let db_task :=
    mkTask (next_task_id db) (Some (tc_title task)) (tc_description task)
           default_status owner utcnow utcnow in
  (db_task,
   mkDB (users db) (tasks db ++ [db_task])
        (next_user_id db) (next_task_id db + 1)).

Definition get_user_tasks (db : DB) (owner : Z) (skip limit : nat) : list Task :=
  firstn limit (skipn skip (filter (fun t => owner_id t =? owner) (tasks db))).

Definition search_tasks (db : DB) (owner : Z) (search : string) : list Task :=
  filter (fun t => (owner_id t =? owner) && ilike (title t) ("%" ++ search ++ "%")%string)%bool
         (tasks db).

Definition get_task (db : DB) (tid owner : Z) : option Task :=
  first (filter (fun t => (task_id t =? tid) && (owner_id t =? owner))%bool
                (tasks db)).

(** [task.model_dump(exclude_unset=True).items()] *)
Definition model_dump_exclude_unset (task : TaskUpdate)
  : list (string * option string) :=
  (match tu_title task with Some v => [("title", v)] | None => [] end) ++
  (match tu_description task with Some v => [("description", v)] | None => [] end) ++
  (match tu_status task with Some v => [("status", v)] | None => [] end).

Definition setattr (t : Task) (key : string) (value : option string) : Task :=
  if String.eqb key "title" then
    mkTask (task_id t) value (description t) (status t)
           (owner_id t) (created_at t) (updated_at t)
  else if String.eqb key "description" then
    mkTask (task_id t) (title t) value (status t)
           (owner_id t) (created_at t) (updated_at t)
  else if String.eqb key "status" then
    mkTask (task_id t) (title t) (description t) value
           (owner_id t) (created_at t) (updated_at t)
  else t.

(** [db.commit()] of a modified row: the row with that primary key is
    rewritten, [updated_at] as the column declaration decides. *)
Definition flush (old new : Task) : Task :=
  mkTask (task_id new) (title new) (description new) (status new)
         (owner_id new) (created_at new) (onupdate_updated_at old new).

Definition commit_update (db : DB) (row : Task) : DB :=
  mkDB (users db)
       (map (fun t => if task_id t =? task_id row then row else t) (tasks db))
       (next_user_id db) (next_task_id db).

Definition update_task (db : DB) (tid owner : Z) (task : TaskUpdate)
  : option Task * DB :=
  match get_task db tid owner with
  | None => (None, db)
  | Some db_task =>
      let modified :=
        fold_left (fun t kv => setattr t (fst kv) (snd kv))
                  (model_dump_exclude_unset task) db_task in
      let stored := flush db_task modified in
      (Some stored, commit_update db stored)
  end.

Definition delete_task (db : DB) (tid owner : Z) : bool * DB :=
  match get_task db tid owner with
  | Some db_task =>
      (true,
       mkDB (users db)
            (filter (fun t => negb (task_id t =? task_id db_task)) (tasks db))
            (next_user_id db) (next_task_id db))
  | None => (false, db)
  end.

(** ** dependencies.py *)

Definition unauthorized (msg : string) : HTTPException :=
  mkHTTPException HTTP_401_UNAUTHORIZED msg.

(** [if not email] holds for [None] and for the empty string. *)
Definition get_current_user (token : string) (db : DB) : Outcome User :=
  match decode_token token with
  | None => Raised (unauthorized "Invalid authentication credentials")
  | Some e =>
      if negb (truthy e) then
        Raised (unauthorized "Invalid authentication credentials")
      else
        match first (filter (fun u => String.eqb (email u) e) (users db)) with
        | None => Raised (unauthorized "User not found")
        | Some user => Returned user
        end
  end.

(** ** routes/auth.py *)

Definition register (user : UserCreate) (db : DB) : Outcome User * DB :=
  match get_user_by_email db (uc_email user) with
  | Some _ =>
      (Raised (mkHTTPException HTTP_400_BAD_REQUEST "Email already registered"),
       db)
  | None =>
      let '(db_user, db') := create_user db user in
      (Returned db_user, db')
  end.

Definition login (credentials : LoginRequest) (db : DB) : Outcome Token :=
  match authenticate_user db (lr_email credentials) (lr_password credentials) with
  | None =>
      Raised (unauthorized "Invalid credentials")
  | Some user =>
      let access_token_expires := ACCESS_TOKEN_EXPIRE_MINUTES settings in
      let token := create_access_token (email user) access_token_expires in
      Returned (mkToken token "bearer")
  end.

(** ** routes/tasks.py *)

Record Message := mkMessage { message : string }.

Definition create_new_task (task : TaskCreate) (current_user : User) (db : DB)
  : Task * DB :=
  create_task db task (user_id current_user).

(** [search: str = None]; [if search:] is false for [None] and for the empty
    string. *)
Definition list_tasks (search : option string) (current_user : User) (db : DB)
  : list Task :=
  match search with
  | Some s =>
      if truthy s then search_tasks db (user_id current_user) s
      else get_user_tasks db (user_id current_user) 0%nat 100%nat
  | None => get_user_tasks db (user_id current_user) 0%nat 100%nat
  end.

Definition get_single_task (tid : Z) (current_user : User) (db : DB)
  : Outcome Task :=
  match get_task db tid (user_id current_user) with
  | None => Raised (mkHTTPException 404 "Task not found")
  | Some task => Returned task
  end.

Definition update_single_task (tid : Z) (task_update : TaskUpdate)
           (current_user : User) (db : DB) : Outcome Task * DB :=
  match update_task db tid (user_id current_user) task_update with
  | (None, db') => (Raised (mkHTTPException 404 "Task not found"), db')
  | (Some task, db') => (Returned task, db')
  end.

Definition delete_single_task (tid : Z) (current_user : User) (db : DB)
  : Outcome Message * DB :=
  match delete_task db tid (user_id current_user) with
  | (false, db') => (Raised (mkHTTPException 404 "Task not found"), db')
  | (true, db') => (Returned (mkMessage "Task deleted successfully"), db')
  end.

End App.

(** ** Token service *)

Module TokenService.

(** Modelled from the spec: [app/auth.py] (the token service behind
    [create_access_token] and [decode_token]) is not among the modelled
    files.  A token is a signed, time-bounded assertion binding a subject to
    an expiry instant. *)
Record Claims := mkClaims {
  sub : string;
  exp : Z
}.

(** Modelled from the spec: the signature scheme and the payload encoding of
    the missing token service.  [parse] answers [None] for a payload that is
    malformed; the encoding of issued claims parses back. *)
Class Scheme := {
  Payload : Type;
  Sig : Type;
  serialize : Claims -> Payload;
  parse : Payload -> option Claims;
  sign : string -> Payload -> Sig;
  sig_eqb : Sig -> Sig -> bool;
  parse_serialize : forall c, parse (serialize c) = Some c;
  sig_eqb_eq : forall a b, sig_eqb a b = true <-> a = b
}.

Record SignedToken `{Scheme} := mkSignedToken {
  payload : Payload;
  signature : Sig
}.

(** Modelled from the spec: [issue(subject, ttl)] of the missing token
    service; the payload states the subject and the absolute expiry
    [now + ttl], signed with the process-wide key. *)
Definition issue `{Scheme} (key subject : string) (ttl now : Z) : SignedToken :=
  let p := serialize (mkClaims subject (now + ttl)) in
  mkSignedToken _ p (sign key p).

(** Modelled from the spec: [verify(token)] of the missing token service; if
    the signature is invalid, or the payload malformed, or the current time
    is at or past the expiry, the answer is invalid ([None]). *)
Definition verify `{Scheme} (key : string) (token : SignedToken) (now : Z)
  : option string :=
  if sig_eqb (signature token) (sign key (payload token)) then
    match parse (payload token) with
    | None => None
    | Some c => if now <? exp c then Some (sub c) else None
    end
  else None.




(** Modelled from the spec: how the missing token service puts a signed
    token on the wire as the string that [login] returns and the
    [Authorization] header carries back, and how it reads one. *)
Class Wire `{Scheme} := {
  to_wire : SignedToken -> string;
  of_wire : string -> option SignedToken
}.


(** Modelled from the spec: [create_access_token(data={"sub": subject},
    expires_delta=timedelta(minutes=minutes))] of the missing [app/auth.py],
    called by [login]: [issue] with the process-wide key at clock value
    [now] (the clock counts minutes), put on the wire. *)
Definition create_access_token `{Wire} (key : string) (now : Z)
           (subject : string) (minutes : Z) : string :=
  to_wire (issue key subject minutes now).

(** Modelled from the spec: [decode_token(token)] of the missing
    [app/auth.py], called by [get_current_user]: [verify] with the
    process-wide key at clock value [now]; a string that is not a token is
    invalid. *)
Definition decode_token `{Wire} (key : string) (now : Z) (token : string)
  : option string :=
  match of_wire token with
  | Some signed => verify key signed now
  | None => None
  end.

End TokenService.


(** ** Predicates on store states *)

(** Some row of the tasks table has primary key [tid]. *)
Definition task_exists (db : DB) (tid : Z) : bool :=
  existsb (fun t => task_id t =? tid) (tasks db).

(** Some row of the tasks table has primary key [tid] and owner [uid]. *)
Definition owned_by (db : DB) (tid uid : Z) : bool :=
  existsb (fun t => (task_id t =? tid) && (owner_id t =? uid))%bool (tasks db).

(** Some row of the users table has email [e]. *)
Definition email_registered (db : DB) (e : string) : bool :=
  existsb (fun u => String.eqb (email u) e) (users db).

Definition not_found : HTTPException := mkHTTPException 404 "Task not found".

(** The user [u] with the active flag set to [b]. *)
Definition set_active (b : bool) (u : User) : User :=
  mkUser (user_id u) (email u) (full_name u) (hashed_password u) b
         (user_created_at u).

(** The store with the active flag of every user recomputed by [flag]. *)
Definition reflag (flag : User -> bool) (db : DB) : DB :=
  mkDB (map (fun u => set_active (flag u) u) (users db)) (tasks db)
       (next_user_id db) (next_task_id db).

(** ** Concrete collaborators, used to run the model on examples *)

Definition toy_decode (token : string) : option string :=
  if String.prefix "tok:" token
  then Some (String.substring 4 (String.length token - 4) token)
  else None.

Definition toy_auth : AuthModule := {|
  get_password_hash := fun p => ("h:" ++ p)%string;
  verify_password := fun p h => String.eqb ("h:" ++ p)%string h;
  create_access_token := fun s _ => ("tok:" ++ s)%string;
  decode_token := toy_decode
|}.

Definition toy_models : ModelDefaults := {|
  default_is_active := true;
  default_status := Some "pending";
  utcnow := 1000;
  onupdate_updated_at := fun _ _ => 1000
|}.

Definition alice : User := mkUser 1 "alice@example.com" "Alice" "h:wonder" true 10.
Definition bob : User := mkUser 2 "bob@example.com" "Bob" "h:builder" false 20.

Definition alice_task : Task :=
  mkTask 1 (Some "Report") (Some "quarterly") (Some "pending") 1 30 30.

Definition toy_db : DB := mkDB [alice; bob] [alice_task] 3 2.

(** [n] create requests by the same user, starting from the empty store. *)
Fixpoint create_many {models : ModelDefaults} (n : nat) (task : TaskCreate)
         (u : User) : DB :=
  match n with
  | O => empty_db
  | S k => snd (create_new_task task u (create_many k task u))
  end.

(** The value a column holds after a request whose field is [field]:
    the value set, or the stored one when the field is unset. *)
Definition applied {A : Type} (field : option A) (stored : A) : A :=
  match field with
  | Some v => v
  | None => stored
  end.












(** ** routes/users.py *)

Definition get_profile (current_user : User) : User := current_user.

(** ** Routes behind [Depends(get_current_user)] *)

(** A route that declares [current_user = Depends(get_current_user)] has
    the dependency run on the bearer token of the request before the
    handler; when the dependency raises, the handler is not called and the
    exception is the response. *)
Definition Depends {auth : AuthModule} {A : Type} (token : string) (db : DB)
           (handler : User -> Outcome A * DB) : Outcome A * DB :=
  match get_current_user token db with
  | Raised e => (Raised e, db)
  | Returned current_user => handler current_user
  end.

(** The routes of routes/users.py and routes/tasks.py as mounted: bearer
    token and request in, response and store out. *)
Definition GET_me {auth : AuthModule} (token : string) (db : DB)
  : Outcome User * DB :=
  Depends token db (fun cu => (Returned (get_profile cu), db)).

Definition POST_task {auth : AuthModule} {models : ModelDefaults}
           (token : string) (task : TaskCreate) (db : DB) : Outcome Task * DB :=
  Depends token db
          (fun cu => (Returned (fst (create_new_task task cu db)),
                      snd (create_new_task task cu db))).

Definition GET_tasks {auth : AuthModule} (token : string)
           (search : option string) (db : DB) : Outcome (list Task) * DB :=
  Depends token db (fun cu => (Returned (list_tasks search cu db), db)).

Definition GET_task {auth : AuthModule} (token : string) (tid : Z) (db : DB)
  : Outcome Task * DB :=
  Depends token db (fun cu => (get_single_task tid cu db, db)).

Definition PUT_task {auth : AuthModule} {models : ModelDefaults}
           (token : string) (tid : Z) (task_update : TaskUpdate) (db : DB)
  : Outcome Task * DB :=
  Depends token db (fun cu => update_single_task tid task_update cu db).

Definition DELETE_task {auth : AuthModule} (token : string) (tid : Z) (db : DB)
  : Outcome Message * DB :=
  Depends token db (fun cu => delete_single_task tid cu db).

(** ** main.py *)

(** [settings.CORS_ORIGINS.split(",")]: the pieces between the commas, an
    empty piece included; the empty string gives one empty piece. *)
Fixpoint split_comma (s : string) : list string :=
  match s with
  | EmptyString => [EmptyString]
  | String c rest =>
      if Ascii.eqb c ","%char then EmptyString :: split_comma rest
      else
        match split_comma rest with
        | [] => [String c EmptyString]
        | piece :: pieces => String c piece :: pieces
        end
  end.

Definition DEFAULT_CORS_ORIGINS : string :=
  "http://localhost:5173,http://localhost:3000".

Definition allow_origins (CORS_ORIGINS : string) : list string :=
  split_comma CORS_ORIGINS.

Fixpoint has_comma (s : string) : bool :=
  match s with
  | EmptyString => false
  | String c rest => (Ascii.eqb c ","%char || has_comma rest)%bool
  end.

(** ** Store invariants *)

Fixpoint distinctb {A : Type} (eqb : A -> A -> bool) (l : list A) : bool :=
  match l with
  | [] => true
  | x :: rest => (negb (existsb (eqb x) rest) && distinctb eqb rest)%bool
  end.

(** Primary keys: no two rows of a table share an id, and every id in use
    is below the next id the table hands out. *)
Definition keys_ok (db : DB) : bool :=
  (distinctb Z.eqb (map task_id (tasks db)) &&
   forallb (fun t => task_id t <? next_task_id db) (tasks db) &&
   distinctb Z.eqb (map user_id (users db)) &&
   forallb (fun u => user_id u <? next_user_id db) (users db))%bool.

(** No two stored users share an email. *)
Definition emails_unique (db : DB) : bool :=
  distinctb String.eqb (map email (users db)).


(** Case folding of a search term or title, as the engine compares them. *)
Definition casefold (s : string) : list ascii :=
  map lower (list_ascii_of_string s).

(** What [update_task] stores for a found row [t]: the row after the
    [setattr] loop, flushed. *)
Definition updated_row {models : ModelDefaults} (upd : TaskUpdate) (t : Task)
  : Task :=
  flush t (mkTask (task_id t)
                  (applied (tu_title upd) (title t))
                  (applied (tu_description upd) (description t))
                  (applied (tu_status upd) (status t))
                  (owner_id t) (created_at t) (updated_at t)).

(** A registration request for an email not in [toy_db]. *)
Definition carol_signup : UserCreate :=
  mkUserCreate "carol@example.com" "Carol" "singer".

(** * Properties *)

(** ** Query lemmas *)

Lemma first_filter_find {A : Type} (f : A -> bool) (l : list A) :
  first (filter f l) = find f l.
Proof.
  induction l as [|x l IH]; simpl; [reflexivity|].
  destruct (f x); simpl; auto.
Qed.

Lemma first_filter_none {A : Type} (f : A -> bool) (l : list A) :
  first (filter f l) = None <-> existsb f l = false.
Proof.
  induction l as [|x l IH]; simpl; [tauto|].
  destruct (f x); simpl; [split; discriminate | exact IH].
Qed.

Lemma first_filter_some {A : Type} (f : A -> bool) (l : list A) (x : A) :
  first (filter f l) = Some x -> In x l /\ f x = true.
Proof.
  rewrite first_filter_find. apply find_some.
Qed.

Lemma existsb_weaken {A : Type} (f g : A -> bool) (l : list A) :
  (forall x, g x = true -> f x = true) ->
  existsb f l = false -> existsb g l = false.
Proof.
  intros Himp Hf.
  destruct (existsb g l) eqn:Hg; [|reflexivity].
  apply existsb_exists in Hg. destruct Hg as [x [Hin Hx]].
  assert (existsb f l = true) by (apply existsb_exists; exists x; auto).
  congruence.
Qed.

Lemma filter_all {A : Type} (f : A -> bool) (l : list A) :
  Forall (fun x => f x = true) l -> filter f l = l.
Proof.
  induction 1 as [|x l Hx _ IH]; simpl; [reflexivity|].
  rewrite Hx, IH. reflexivity.
Qed.

Lemma Forall_firstn {A : Type} (P : A -> Prop) (n : nat) (l : list A) :
  Forall P l -> Forall P (firstn n l).
Proof.
  intros H. revert n.
  induction H as [|x l Hx _ IH]; intros [|n]; simpl; auto.
Qed.

Lemma Forall_skipn {A : Type} (P : A -> Prop) (n : nat) (l : list A) :
  Forall P l -> Forall P (skipn n l).
Proof.
  intros H. revert n.
  induction H as [|x l Hx Hl IH]; intros [|n]; simpl; auto.
Qed.

Lemma Forall_filter {A : Type} (f : A -> bool) (l : list A) :
  Forall (fun x => f x = true) (filter f l).
Proof.
  rewrite Forall_forall. intros x Hx. apply filter_In in Hx. tauto.
Qed.

Section Gate.

Context {auth : AuthModule} {models : ModelDefaults}.

Lemma get_task_none (db : DB) (tid uid : Z) :
  get_task db tid uid = None <-> owned_by db tid uid = false.
Proof. apply first_filter_none. Qed.

Lemma absent_not_owned (db : DB) (tid uid : Z) :
  task_exists db tid = false -> owned_by db tid uid = false.
Proof.
  apply existsb_weaken. intros t Ht.
  apply andb_true_iff in Ht. tauto.
Qed.

Lemma gate_rejects (db : DB) (tid : Z) (cu : User) (upd : TaskUpdate) :
  owned_by db tid (user_id cu) = false ->
  get_single_task tid cu db = Raised not_found /\
  update_single_task tid upd cu db = (Raised not_found, db) /\
  delete_single_task tid cu db = (Raised not_found, db).
Proof.
  intros H. apply get_task_none in H.
  unfold get_single_task, update_single_task, delete_single_task,
    update_task, delete_task.
  rewrite H. auto.
Qed.

(** C1. Let [db1] hold no task with id [tid], and let [db2] hold a task
    with id [tid] but none with that id owned by the requester [cu].  Then
    reading, updating and deleting task [tid] on behalf of [cu] raise the
    same exception in both stores, status 404 with detail "Task not found",
    and leave the store as it was: the response does not tell a task of
    another owner from a missing one. *)
Theorem not_found_is_uniform
  (db1 db2 : DB) (tid : Z) (cu : User) (upd : TaskUpdate) :
  task_exists db1 tid = false ->
  task_exists db2 tid = true ->
  owned_by db2 tid (user_id cu) = false ->
  (get_single_task tid cu db1 = Raised not_found /\
   get_single_task tid cu db2 = Raised not_found) /\
  (update_single_task tid upd cu db1 = (Raised not_found, db1) /\
   update_single_task tid upd cu db2 = (Raised not_found, db2)) /\
  (delete_single_task tid cu db1 = (Raised not_found, db1) /\
   delete_single_task tid cu db2 = (Raised not_found, db2)).
Proof.
  intros Habsent _ Hforeign.
  pose proof (gate_rejects db1 tid cu upd
                (absent_not_owned db1 tid (user_id cu) Habsent))
    as [G1 [U1 D1]].
  pose proof (gate_rejects db2 tid cu upd Hforeign) as [G2 [U2 D2]].
  repeat split; assumption.
Qed.

End Gate.

Section Identity.

Context {auth : AuthModule} {models : ModelDefaults}.
Variable settings : Settings.

Lemma get_user_by_email_none (db : DB) (e : string) :
  get_user_by_email db e = None <-> email_registered db e = false.
Proof. apply first_filter_none. Qed.

Lemma get_user_by_email_some (db : DB) (e : string) (u : User) :
  get_user_by_email db e = Some u -> In u (users db) /\ email u = e.
Proof.
  intros H. apply first_filter_some in H. destruct H as [Hin He].
  apply String.eqb_eq in He. auto.
Qed.

Lemma registered_found (db : DB) (e : string) :
  email_registered db e = true -> exists u, get_user_by_email db e = Some u.
Proof.
  intros H. destruct (get_user_by_email db e) as [u|] eqn:Hu; [eauto|].
  apply get_user_by_email_none in Hu. congruence.
Qed.



(** C3. The task built and inserted by the create route has [owner_id] equal
    to the id of the authenticated user; the request schema [TaskCreate]
    carries a title and a description and nothing else, and the row is
    appended to the table with the other rows and the users untouched. *)
Theorem created_task_is_owned_by_requester
  (task : TaskCreate) (cu : User) (db : DB) :
  owner_id (fst (create_new_task task cu db)) = user_id cu /\
  title (fst (create_new_task task cu db)) = Some (tc_title task) /\
  description (fst (create_new_task task cu db)) = tc_description task /\
  tasks (snd (create_new_task task cu db)) =
    tasks db ++ [fst (create_new_task task cu db)] /\
  users (snd (create_new_task task cu db)) = users db.
Proof.
  unfold create_new_task, create_task. simpl. repeat split.
Qed.

(** C4. Login raises one and the same exception, status 401 with detail
    "Invalid credentials", when no stored user has the email and when a
    user is found but the password does not verify against the stored hash;
    when both checks pass it returns the issued token with the token type
    "bearer". *)
Theorem login_failure_is_undifferentiated (credentials : LoginRequest) (db : DB) :
  (email_registered db (lr_email credentials) = false ->
   login settings credentials db = Raised (unauthorized "Invalid credentials")) /\
  (forall u,
     get_user_by_email db (lr_email credentials) = Some u ->
     verify_password (lr_password credentials) (hashed_password u) = false ->
     login settings credentials db = Raised (unauthorized "Invalid credentials")) /\
  (forall u,
     get_user_by_email db (lr_email credentials) = Some u ->
     verify_password (lr_password credentials) (hashed_password u) = true ->
     login settings credentials db =
       Returned (mkToken (create_access_token
                            (email u) (ACCESS_TOKEN_EXPIRE_MINUTES settings))
                         "bearer")).
Proof.
  unfold login, authenticate_user. repeat split.
  - intros H. apply get_user_by_email_none in H. rewrite H. reflexivity.
  - intros u Hu Hv. rewrite Hu, Hv. reflexivity.
  - intros u Hu Hv. rewrite Hu, Hv. reflexivity.
Qed.

(** C5. When a user with the submitted email is already stored, register
    raises the duplicate-email failure (status 400, detail "Email already
    registered") and returns the store as it was: no row is inserted, and
    the lookup of that email answers the same record as before. *)
Theorem register_duplicate_is_rejected (user : UserCreate) (db : DB) :
  email_registered db (uc_email user) = true ->
  register user db =
    (Raised (mkHTTPException 400 "Email already registered"), db) /\
  users (snd (register user db)) = users db /\
  get_user_by_email (snd (register user db)) (uc_email user) =
    get_user_by_email db (uc_email user).
Proof.
  intros H. apply registered_found in H. destruct H as [u Hu].
  unfold register. rewrite Hu. simpl. auto.
Qed.

End Identity.

Section Tasks.

Context {auth : AuthModule} {models : ModelDefaults}.

Lemma setattr_loop (task : TaskUpdate) (t : Task) :
  fold_left (fun r kv => setattr r (fst kv) (snd kv))
            (model_dump_exclude_unset task) t =
  mkTask (task_id t)
         (applied (tu_title task) (title t))
         (applied (tu_description task) (description t))
         (applied (tu_status task) (status t))
         (owner_id t) (created_at t) (updated_at t).
Proof.
  destruct task as [[ti|] [de|] [st|]], t; reflexivity.
Qed.

Lemma find_after_rewrite (f : Task -> bool) (k : Z) (row t : Task) (l : list Task) :
  find f l = Some t ->
  task_id t = k ->
  f row = true ->
  find f (map (fun r => if task_id r =? k then row else r) l) = Some row.
Proof.
  intros Hfind Hid Hrow.
  induction l as [|x l IH]; simpl in *; [discriminate|].
  destruct (f x) eqn:Hx.
  - injection Hfind as ->. rewrite Hid, Z.eqb_refl, Hrow. reflexivity.
  - destruct (task_id x =? k).
    + rewrite Hrow. reflexivity.
    + rewrite Hx. auto.
Qed.

Lemma rows_elsewhere_kept (k : Z) (row r : Task) (l : list Task) :
  In r l -> task_id r <> k ->
  In r (map (fun x => if task_id x =? k then row else x) l).
Proof.
  intros Hin Hne. apply in_map_iff. exists r. split; [|assumption].
  apply Z.eqb_neq in Hne. rewrite Hne. reflexivity.
Qed.

(** C6. Updating a task that the requester owns returns and stores a row in
    which each of title, description and status holds the value set by the
    request when the request sets the field, and the value stored before
    when the field is unset; id, owner and creation time are kept, and rows
    with another id are kept.  A request that sets only the status keeps
    title and description. *)
Theorem update_applies_only_set_fields
  (db : DB) (tid : Z) (cu : User) (upd : TaskUpdate) (t : Task) :
  get_task db tid (user_id cu) = Some t ->
  exists t',
    update_single_task tid upd cu db = (Returned t', commit_update db t') /\
    get_task (commit_update db t') tid (user_id cu) = Some t' /\
    title t' = applied (tu_title upd) (title t) /\
    description t' = applied (tu_description upd) (description t) /\
    status t' = applied (tu_status upd) (status t) /\
    (task_id t' = task_id t /\ owner_id t' = owner_id t /\
     created_at t' = created_at t) /\
    (forall r, In r (tasks db) -> task_id r <> task_id t ->
               In r (tasks (commit_update db t'))) /\
    (forall s, upd = mkTaskUpdate None None (Some s) ->
               title t' = title t /\ description t' = description t /\
               status t' = s).
Proof.
  intros Hget.
  unfold update_single_task, update_task. rewrite Hget.
  rewrite setattr_loop.
  eexists. split; [reflexivity|].
  pose proof Hget as Hfind. unfold get_task in Hfind.
  rewrite first_filter_find in Hfind.
  pose proof (find_some _ _ Hfind) as [Hin Hkey].
  repeat split; simpl.
  - unfold get_task, commit_update. simpl. rewrite first_filter_find.
    eapply find_after_rewrite; [exact Hfind | reflexivity | exact Hkey].
  - intros r Hr Hne. apply rows_elsewhere_kept; auto.
  - subst upd. reflexivity.
  - subst upd. reflexivity.
  - subst upd. reflexivity.
Qed.

Lemma owned_rows (db : DB) (uid : Z) :
  Forall (fun t => owner_id t = uid)
         (filter (fun t => owner_id t =? uid) (tasks db)).
Proof.
  eapply Forall_impl; [|apply Forall_filter].
  intros t Ht. simpl in Ht. apply Z.eqb_eq. exact Ht.
Qed.

(** C7. Every task returned by listing (for any offset and limit), by
    searching, and by the list route with or without a search term, has
    [owner_id] equal to the id of the requester, whatever rows the tasks
    table holds. *)
Theorem listed_tasks_belong_to_requester
  (db : DB) (cu : User) (search : option string) (s : string) (skip limit : nat) :
  Forall (fun t => owner_id t = user_id cu)
         (get_user_tasks db (user_id cu) skip limit) /\
  Forall (fun t => owner_id t = user_id cu)
         (search_tasks db (user_id cu) s) /\
  Forall (fun t => owner_id t = user_id cu)
         (list_tasks search cu db).
Proof.
  assert (Hlist : forall k n,
             Forall (fun t => owner_id t = user_id cu)
                    (get_user_tasks db (user_id cu) k n)).
  { intros k n. unfold get_user_tasks.
    apply Forall_firstn, Forall_skipn, owned_rows. }
  assert (Hsearch : forall q,
             Forall (fun t => owner_id t = user_id cu)
                    (search_tasks db (user_id cu) q)).
  { intros q. unfold search_tasks.
    eapply Forall_impl; [|apply Forall_filter].
    intros t Ht. simpl in Ht. apply andb_true_iff in Ht.
    apply Z.eqb_eq. tauto. }
  repeat split; auto.
  unfold list_tasks. destruct search as [q|]; [destruct (truthy q)|]; auto.
Qed.

End Tasks.

(** ** Pattern matching lemmas *)

Lemma like_cons (c : ascii) (p : list ascii) (s : list ascii) :
  like (c :: p) s =
  if Ascii.eqb c "%"%char then
    (like p s ||
     match s with
     | [] => false
     | _ :: s' => like ("%"%char :: p) s'
     end)%bool
  else if Ascii.eqb c "_"%char then
    match s with [] => false | _ :: s' => like p s' end
  else
    match s with
    | [] => false
    | d :: s' => (Ascii.eqb (lower c) (lower d) && like p s')%bool
    end.
Proof.
  simpl. destruct (Ascii.eqb c "%"%char); [destruct s; reflexivity|].
  destruct (Ascii.eqb c "_"%char); reflexivity.
Qed.

Lemma like_percent_intro (p s : list ascii) :
  like p s = true -> like ("%"%char :: p) s = true.
Proof.
  intros H. rewrite like_cons. simpl. rewrite H. reflexivity.
Qed.

Lemma like_self (p : list ascii) : like p p = true.
Proof.
  induction p as [|c p IH]; [reflexivity|].
  rewrite like_cons.
  destruct (Ascii.eqb c "%"%char) eqn:Hpct.
  - apply Ascii.eqb_eq in Hpct. subst c.
    rewrite (like_percent_intro p p IH). apply orb_true_r.
  - destruct (Ascii.eqb c "_"%char); [exact IH|].
    rewrite Ascii.eqb_refl, IH. reflexivity.
Qed.

Lemma like_trailing_percent (p : list ascii) :
  like (p ++ ["%"%char]) p = true.
Proof.
  induction p as [|c p IH]; [reflexivity|].
  rewrite <- app_comm_cons, like_cons.
  destruct (Ascii.eqb c "%"%char) eqn:Hpct.
  - apply Ascii.eqb_eq in Hpct. subst c.
    rewrite (like_percent_intro _ _ IH). apply orb_true_r.
  - destruct (Ascii.eqb c "_"%char); [exact IH|].
    rewrite Ascii.eqb_refl, IH. reflexivity.
Qed.

Lemma list_ascii_of_string_append (a b : string) :
  list_ascii_of_string (a ++ b)%string =
  list_ascii_of_string a ++ list_ascii_of_string b.
Proof.
  induction a as [|c a IH]; simpl; [reflexivity|].
  rewrite IH. reflexivity.
Qed.

(** A search for a title finds the rows that carry this title. *)
Lemma ilike_own_title (s : string) :
  ilike (Some s) ("%" ++ s ++ "%")%string = true.
Proof.
  unfold ilike. simpl.
  rewrite list_ascii_of_string_append. simpl.
  apply like_percent_intro, like_trailing_percent.
Qed.

Section Paging.

Context {models : ModelDefaults}.

Lemma create_many_rows (n : nat) (task : TaskCreate) (u : User) :
  Forall (fun t => owner_id t = user_id u /\ title t = Some (tc_title task))
         (tasks (create_many n task u)) /\
  List.length (tasks (create_many n task u)) = n.
Proof.
  induction n as [|n [IHrows IHlen]]; simpl; [split; [constructor | reflexivity]|].
  split.
  - apply Forall_app. split; [exact IHrows|].
    constructor; [|constructor]. simpl. auto.
  - rewrite length_app, IHlen. simpl. lia.
Qed.

(** C10. Without a search term (absent or empty) the list route returns the
    first 100 rows owned by the requester in storage order, so at most 100
    and none at position 100 or later.  The search branch has no cap: after
    [n] create requests with one non-empty title, searching for that title
    returns [n] tasks while the plain listing returns [min n 100]. *)
Theorem list_route_returns_first_hundred (cu : User) (db : DB) :
  list_tasks None cu db =
    firstn 100 (filter (fun t => owner_id t =? user_id cu) (tasks db)) /\
  list_tasks (Some "") cu db = list_tasks None cu db /\
  (List.length (list_tasks None cu db) <= 100)%nat /\
  (forall i, nth_error (list_tasks None cu db) (100 + i) = None) /\
  (forall (n : nat) (c : ascii) (s : string) (d : option string),
     let task := mkTaskCreate (String c s) d in
     List.length (list_tasks (Some (tc_title task)) cu (create_many n task cu)) = n /\
     List.length (list_tasks None cu (create_many n task cu)) = Nat.min 100 n).
Proof.
  assert (Hcap : (List.length (list_tasks None cu db) <= 100)%nat).
  { unfold list_tasks, get_user_tasks. apply firstn_le_length. }
  split; [reflexivity|]. split; [reflexivity|]. split; [exact Hcap|].
  split.
  - intros i. apply nth_error_None. lia.
  - intros n c s d task.
    destruct (create_many_rows n task cu) as [Hrows Hlen].
    split.
    + unfold list_tasks, task. cbn [tc_title truthy]. unfold search_tasks.
      rewrite filter_all; [exact Hlen|].
      eapply Forall_impl; [|exact Hrows].
      intros t [Howner Htitle]. cbv beta. cbn [tc_title] in Htitle.
      rewrite Howner, Z.eqb_refl, Htitle, ilike_own_title. reflexivity.
    + unfold list_tasks, get_user_tasks. rewrite skipn_O.
      rewrite filter_all.
      * rewrite length_firstn, Hlen. reflexivity.
      * eapply Forall_impl; [|exact Hrows].
        intros t [Howner _]. simpl. rewrite Howner. apply Z.eqb_refl.
Qed.

End Paging.

Section Tokens.

Context {scheme : TokenService.Scheme} {wire : TokenService.Wire}.
Variable passwords : AuthModule.






End Tokens.

Section ActiveFlag.

Context {auth : AuthModule} {models : ModelDefaults}.
Variable settings : Settings.

Lemma first_filter_map {A : Type} (f : A -> bool) (g : A -> A) (l : list A) :
  (forall x, f (g x) = f x) ->
  first (filter f (map g l)) = option_map g (first (filter f l)).
Proof.
  intros Hfg. induction l as [|x l IH]; simpl; [reflexivity|].
  rewrite Hfg. destruct (f x); simpl; auto.
Qed.

Lemma get_user_by_email_reflag (flag : User -> bool) (db : DB) (e : string) :
  get_user_by_email (reflag flag db) e =
  option_map (fun u => set_active (flag u) u) (get_user_by_email db e).
Proof.
  unfold get_user_by_email, reflag. simpl.
  apply (first_filter_map (fun u => String.eqb (email u) e)
                          (fun u => set_active (flag u) u)).
  reflexivity.
Qed.

Lemma login_reflag (flag : User -> bool) (credentials : LoginRequest) (db : DB) :
  login settings credentials (reflag flag db) = login settings credentials db.
Proof.
  unfold login, authenticate_user. rewrite get_user_by_email_reflag.
  destruct (get_user_by_email db (lr_email credentials)) as [u|]; simpl;
    [|reflexivity].
  destruct (verify_password (lr_password credentials) (hashed_password u));
    reflexivity.
Qed.

Lemma get_current_user_reflag (flag : User -> bool) (token : string) (db : DB) :
  get_current_user token (reflag flag db) =
  match get_current_user token db with
  | Returned u => Returned (set_active (flag u) u)
  | Raised e => Raised e
  end.
Proof.
  unfold get_current_user.
  destruct (decode_token token) as [e|]; [|reflexivity].
  destruct (truthy e); cbn [negb]; [|reflexivity].
  pose proof (get_user_by_email_reflag flag db e) as H.
  unfold get_user_by_email in H. rewrite H.
  destruct (first (filter (fun u => String.eqb (email u) e) (users db)));
    reflexivity.
Qed.

Lemma register_reflag (flag : User -> bool) (user : UserCreate) (db : DB) :
  fst (register user (reflag flag db)) = fst (register user db).
Proof.
  unfold register. rewrite get_user_by_email_reflag.
  destruct (get_user_by_email db (uc_email user)); reflexivity.
Qed.

(** C9. Let [u] be a stored user whose active flag is false.  Login with
    the email and a password that verifies against the hash of [u] returns
    a bearer token; resolving a token whose subject is the email of [u]
    returns [u]; and create, list, search, read, update and delete give for
    [u] the result they give for the same user with the flag set to any
    other value.  Moreover, for every store, recomputing all active flags
    changes neither the outcome of login nor of register, and changes the
    outcome of identity resolution only in the flag of the returned user. *)
Theorem inactive_user_is_served
  (db : DB) (u : User) (credentials : LoginRequest) (token : string) :
  is_active u = false ->
  get_user_by_email db (lr_email credentials) = Some u ->
  verify_password (lr_password credentials) (hashed_password u) = true ->
  decode_token token = Some (email u) ->
  truthy (email u) = true ->
  login settings credentials db =
    Returned (mkToken (create_access_token
                         (email u) (ACCESS_TOKEN_EXPIRE_MINUTES settings))
                      "bearer") /\
  get_current_user token db = Returned u /\
  (forall b task search tid upd,
     create_new_task task u db = create_new_task task (set_active b u) db /\
     list_tasks search u db = list_tasks search (set_active b u) db /\
     get_single_task tid u db = get_single_task tid (set_active b u) db /\
     update_single_task tid upd u db =
       update_single_task tid upd (set_active b u) db /\
     delete_single_task tid u db = delete_single_task tid (set_active b u) db) /\
  (forall flag db' credentials' token' user',
     login settings credentials' (reflag flag db') =
       login settings credentials' db' /\
     fst (register user' (reflag flag db')) = fst (register user' db') /\
     get_current_user token' (reflag flag db') =
       match get_current_user token' db' with
       | Returned v => Returned (set_active (flag v) v)
       | Raised e => Raised e
       end).
Proof.
  intros _ Hfound Hverify Hdecode Hnonempty.
  split; [|split; [|split]].
  - unfold login, authenticate_user. rewrite Hfound, Hverify. reflexivity.
  - pose proof (get_user_by_email_some _ _ _ Hfound) as [_ Hemail].
    unfold get_current_user. rewrite Hdecode, Hnonempty. simpl.
    unfold get_user_by_email in Hfound. rewrite Hemail, Hfound. reflexivity.
  - intros. repeat split.
  - intros. split; [apply login_reflag|].
    split; [apply register_reflag | apply get_current_user_reflag].
Qed.

End ActiveFlag.

(** ** The theorems at concrete stores *)

(** Bob asks for task 1: in the empty store it does not exist, in [toy_db]
    it belongs to Alice. *)
Lemma not_found_is_uniform_witness :
  get_single_task 1 bob empty_db = Raised not_found /\
  get_single_task 1 bob toy_db = Raised not_found.
Proof.
  exact (proj1 (not_found_is_uniform
                  (models := toy_models) empty_db toy_db 1 bob
                  (mkTaskUpdate None None (Some (Some "done")))
                  eq_refl eq_refl eq_refl)).
Defined.



Lemma login_failure_is_undifferentiated_witness :
  @login toy_auth default_settings
         (mkLoginRequest "nobody@example.com" "wonder") toy_db =
    Raised (unauthorized "Invalid credentials") /\
  @login toy_auth default_settings
         (mkLoginRequest "alice@example.com" "wrong") toy_db =
    Raised (unauthorized "Invalid credentials") /\
  @login toy_auth default_settings
         (mkLoginRequest "alice@example.com" "wonder") toy_db =
    Returned (mkToken "tok:alice@example.com" "bearer").
Proof.
  split; [|split].
  - apply (proj1 (login_failure_is_undifferentiated
                    (auth := toy_auth) default_settings
                    (mkLoginRequest "nobody@example.com" "wonder") toy_db)).
    reflexivity.
  - apply (proj1 (proj2 (login_failure_is_undifferentiated
                           (auth := toy_auth) default_settings
                           (mkLoginRequest "alice@example.com" "wrong") toy_db))
             alice); reflexivity.
  - apply (proj2 (proj2 (login_failure_is_undifferentiated
                           (auth := toy_auth) default_settings
                           (mkLoginRequest "alice@example.com" "wonder") toy_db))
             alice); reflexivity.
Defined.

Lemma register_duplicate_is_rejected_witness :
  @register toy_auth toy_models
            (mkUserCreate "bob@example.com" "Robert" "hammer") toy_db =
    (Raised (mkHTTPException 400 "Email already registered"), toy_db).
Proof.
  apply (proj1 (register_duplicate_is_rejected
                  (auth := toy_auth) (models := toy_models)
                  (mkUserCreate "bob@example.com" "Robert" "hammer") toy_db
                  eq_refl)).
Defined.

Lemma update_applies_only_set_fields_witness :
  exists t',
    @update_single_task toy_models 1
      (mkTaskUpdate None None (Some (Some "done"))) alice toy_db =
      (Returned t', commit_update toy_db t') /\
    title t' = Some "Report" /\
    description t' = Some "quarterly" /\
    status t' = Some "done".
Proof.
  destruct (update_applies_only_set_fields
              (models := toy_models) toy_db 1 alice
              (mkTaskUpdate None None (Some (Some "done"))) alice_task eq_refl)
    as [t' [Hrun [_ [Htitle [Hdescr [Hstatus _]]]]]].
  exists t'. repeat split; assumption.
Defined.







(** Bob's active flag is false in [toy_db]. *)
Lemma inactive_user_is_served_witness :
  is_active bob = false /\
  @login toy_auth default_settings
         (mkLoginRequest "bob@example.com" "builder") toy_db =
    Returned (mkToken "tok:bob@example.com" "bearer") /\
  @get_current_user toy_auth "tok:bob@example.com" toy_db = Returned bob.
Proof.
  split; [reflexivity|].
  destruct (inactive_user_is_served
              (auth := toy_auth) (models := toy_models) default_settings
              toy_db bob (mkLoginRequest "bob@example.com" "builder")
              "tok:bob@example.com"
              eq_refl eq_refl eq_refl eq_refl eq_refl)
    as [Hlogin [Hresolve _]].
  split; assumption.
Defined.

(** ** Store invariants and lookups *)

Lemma distinctb_NoDup {A : Type} (eqb : A -> A -> bool) (l : list A) :
  (forall a b, eqb a b = true <-> a = b) ->
  distinctb eqb l = true <-> NoDup l.
Proof.
  intros Heqb. induction l as [|x l IH]; simpl.
  - split; [constructor | reflexivity].
  - rewrite andb_true_iff, negb_true_iff, IH. split.
    + intros [Hx Hl]. constructor; [|exact Hl].
      intros Hin.
      assert (existsb (eqb x) l = true) as E
          by (apply existsb_exists; exists x; split; [exact Hin | apply Heqb; reflexivity]).
      congruence.
    + intros Hnd. inversion Hnd as [|y l' Hnotin Hl]; subst.
      split; [|exact Hl].
      destruct (existsb (eqb x) l) eqn:E; [|reflexivity].
      apply existsb_exists in E. destruct E as [y [Hy Hxy]].
      apply Heqb in Hxy. subst y. contradiction.
Qed.

Lemma first_app {A : Type} (l1 l2 : list A) :
  first (l1 ++ l2) = match first l1 with Some x => Some x | None => first l2 end.
Proof. destruct l1; reflexivity. Qed.

Lemma email_registered_in (db : DB) (e : string) :
  email_registered db e = true <-> In e (map email (users db)).
Proof.
  unfold email_registered. rewrite existsb_exists, in_map_iff.
  split; intros [u [H1 H2]]; exists u.
  - apply String.eqb_eq in H2. auto.
  - split; [exact H2 | apply String.eqb_eq; exact H1].
Qed.

Section Registration.

Context {auth : AuthModule} {models : ModelDefaults}.
Variable settings : Settings.

Lemma register_fresh (user : UserCreate) (db : DB) :
  email_registered db (uc_email user) = false ->
  register user db = (Returned (fst (create_user db user)), snd (create_user db user)).
Proof.
  intros H. apply first_filter_none in H.
  unfold register, get_user_by_email. rewrite H. reflexivity.
Qed.

Lemma lookup_after_create_user (user : UserCreate) (db : DB) (e : string) :
  get_user_by_email (snd (create_user db user)) e =
  match get_user_by_email db e with
  | Some u => Some u
  | None => if String.eqb (uc_email user) e
            then Some (fst (create_user db user)) else None
  end.
Proof.
  unfold get_user_by_email, create_user. simpl.
  rewrite filter_app, first_app. simpl.
  destruct (String.eqb (uc_email user) e); reflexivity.
Qed.

(** X1. Registering an email that is not yet stored returns the new user, who
    carries the submitted email and name, the hash of the submitted
    password and the next free id; afterwards the lookup of that email
    answers this user, the lookup of every other email answers what it
    answered before, and the tasks table is unchanged. *)
Theorem register_then_lookup (user : UserCreate) (db : DB) :
  email_registered db (uc_email user) = false ->
  exists u db',
    register user db = (Returned u, db') /\
    (user_id u = next_user_id db /\ email u = uc_email user /\
     full_name u = uc_full_name user /\
     hashed_password u = get_password_hash (uc_password user)) /\
    users db' = users db ++ [u] /\
    tasks db' = tasks db /\
    get_user_by_email db' (uc_email user) = Some u /\
    (forall e, e <> uc_email user ->
               get_user_by_email db' e = get_user_by_email db e).
Proof.
  intros Hfresh.
  exists (fst (create_user db user)), (snd (create_user db user)).
  split; [apply register_fresh; exact Hfresh|].
  split; [repeat split; reflexivity|].
  split; [reflexivity|]. split; [reflexivity|].
  split.
  - rewrite lookup_after_create_user.
    apply get_user_by_email_none in Hfresh. rewrite Hfresh, String.eqb_refl.
    reflexivity.
  - intros e Hne. rewrite lookup_after_create_user.
    destruct (get_user_by_email db e); [reflexivity|].
    apply not_eq_sym, String.eqb_neq in Hne. rewrite Hne. reflexivity.
Qed.

(** X2. Register keeps emails unique: if no two stored users share an email
    before the call, none do after it, whether the call inserts or is
    rejected. *)
Theorem register_keeps_emails_unique (user : UserCreate) (db : DB) :
  emails_unique db = true ->
  emails_unique (snd (register user db)) = true.
Proof.
  unfold emails_unique. intros Huniq.
  destruct (email_registered db (uc_email user)) eqn:Hreg.
  - apply registered_found in Hreg. destruct Hreg as [u Hu].
    unfold register. rewrite Hu. exact Huniq.
  - rewrite register_fresh by exact Hreg.
    unfold create_user. simpl. rewrite map_app. simpl.
    apply (distinctb_NoDup String.eqb); [apply String.eqb_eq|].
    apply (distinctb_NoDup String.eqb) in Huniq; [|apply String.eqb_eq].
    apply NoDup_app; [exact Huniq | |].
    + constructor; [intros []|constructor].
    + intros e Hin [He|[]]. subst e.
      apply email_registered_in in Hin. congruence.
Qed.

(** X3. Registering the same email a second time, with any name and password,
    is rejected with status 400 and leaves the store exactly as the first
    registration left it. *)
Theorem register_twice_is_rejected (user again : UserCreate) (db : DB) :
  email_registered db (uc_email user) = false ->
  uc_email again = uc_email user ->
  register again (snd (register user db)) =
    (Raised (mkHTTPException 400 "Email already registered"),
     snd (register user db)).
Proof.
  intros Hfresh Hsame.
  rewrite (register_fresh user db Hfresh). cbn [snd].
  unfold register. rewrite Hsame, lookup_after_create_user.
  apply get_user_by_email_none in Hfresh.
  rewrite Hfresh, String.eqb_refl. reflexivity.
Qed.

(** X4. When the password codec verifies a password against its own hash, a
    user who registers an unused email can log in with the same email and
    password and receives a bearer token for that email; before the
    registration the same login is refused. *)
Theorem register_then_login (user : UserCreate) (db : DB) :
  email_registered db (uc_email user) = false ->
  verify_password (uc_password user) (get_password_hash (uc_password user)) = true ->
  login settings (mkLoginRequest (uc_email user) (uc_password user)) db =
    Raised (unauthorized "Invalid credentials") /\
  login settings (mkLoginRequest (uc_email user) (uc_password user))
        (snd (register user db)) =
    Returned (mkToken (create_access_token
                         (uc_email user) (ACCESS_TOKEN_EXPIRE_MINUTES settings))
                      "bearer").
Proof.
  intros Hfresh Hcodec.
  pose proof Hfresh as Hnone. apply get_user_by_email_none in Hnone.
  split.
  - unfold login, authenticate_user. simpl. rewrite Hnone. reflexivity.
  - rewrite (register_fresh user db Hfresh). cbn [snd].
    unfold login, authenticate_user. cbn [lr_email lr_password].
    rewrite lookup_after_create_user, Hnone, String.eqb_refl.
    cbn [create_user fst hashed_password email]. rewrite Hcodec. reflexivity.
Qed.

(** X5. Login returns a token only for a stored user: if login returns, some
    stored user has the submitted email and a hash against which the
    submitted password verifies, and the token is the one issued for that
    email with the configured lifetime, typed "bearer". *)
Theorem login_token_implies_stored_user
  (credentials : LoginRequest) (db : DB) (token : Token) :
  login settings credentials db = Returned token ->
  exists u,
    In u (users db) /\
    email u = lr_email credentials /\
    verify_password (lr_password credentials) (hashed_password u) = true /\
    token = mkToken (create_access_token
                       (lr_email credentials)
                       (ACCESS_TOKEN_EXPIRE_MINUTES settings))
                    "bearer".
Proof.
  unfold login, authenticate_user. intros H.
  destruct (get_user_by_email db (lr_email credentials)) as [u|] eqn:Hu;
    [|discriminate].
  destruct (verify_password (lr_password credentials) (hashed_password u)) eqn:Hv;
    simpl in H; [|discriminate].
  apply get_user_by_email_some in Hu. destruct Hu as [Hin Hemail].
  exists u. rewrite <- Hemail. injection H as <-. auto.
Qed.

End Registration.

(** ** Primary keys *)

Lemma keys_ok_spec (db : DB) :
  keys_ok db = true <->
  (NoDup (map task_id (tasks db)) /\
   Forall (fun t => task_id t < next_task_id db) (tasks db)) /\
  (NoDup (map user_id (users db)) /\
   Forall (fun u => user_id u < next_user_id db) (users db)).
Proof.
  unfold keys_ok. rewrite !andb_true_iff.
  rewrite !(distinctb_NoDup Z.eqb) by apply Z.eqb_eq.
  rewrite !forallb_forall, !Forall_forall.
  split.
  - intros [[[H1 H2] H3] H4]. repeat split; auto;
      intros x Hx; apply Z.ltb_lt; auto.
  - intros [[H1 H2] [H3 H4]]. repeat split; auto;
      intros x Hx; apply Z.ltb_lt; auto.
Qed.

Lemma NoDup_snoc_fresh {A : Type} (key : A -> Z) (l : list A) (x : A) (n : Z) :
  NoDup (map key l) -> Forall (fun a => key a < n) l -> key x = n ->
  NoDup (map key (l ++ [x])) /\ Forall (fun a => key a < n + 1) (l ++ [x]).
Proof.
  intros Hnd Hlt Hx. split.
  - rewrite map_app. apply NoDup_app; [exact Hnd | |].
    + constructor; [intros []|constructor].
    + intros k Hin [Hk|[]]. subst k.
      apply in_map_iff in Hin. destruct Hin as [a [Ha Hin]].
      rewrite Forall_forall in Hlt. specialize (Hlt a Hin). lia.
  - apply Forall_app. split.
    + eapply Forall_impl; [|exact Hlt]. intros a Ha. simpl in Ha. lia.
    + constructor; [lia|constructor].
Qed.

Lemma NoDup_map_filter {A B : Type} (key : A -> B) (p : A -> bool) (l : list A) :
  NoDup (map key l) -> NoDup (map key (filter p l)).
Proof.
  induction l as [|x l IH]; simpl; intros Hnd; [constructor|].
  inversion Hnd as [|k ks Hnotin Hrest]; subst.
  destruct (p x); simpl; [|auto].
  constructor; [|auto].
  intros Hin. apply Hnotin.
  apply in_map_iff in Hin. destruct Hin as [a [Ha Hin]].
  apply filter_In in Hin. apply in_map_iff. exists a. tauto.
Qed.


Lemma map_key_rewrite (k : Z) (row : Task) (l : list Task) :
  task_id row = k ->
  map task_id (map (fun r => if task_id r =? k then row else r) l) =
  map task_id l.
Proof.
  intros Hrow. rewrite map_map. apply map_ext_in. intros r _.
  destruct (task_id r =? k) eqn:E; [|reflexivity].
  apply Z.eqb_eq in E. congruence.
Qed.

Lemma Forall_key_map {A : Type} (key : A -> Z) (n : Z) (l : list A) :
  Forall (fun a => key a < n) l <-> Forall (fun i => i < n) (map key l).
Proof.
  rewrite !Forall_forall. split.
  - intros H i Hi. apply in_map_iff in Hi. destruct Hi as [a [<- Ha]]. auto.
  - intros H a Ha. apply H. apply in_map. exact Ha.
Qed.

Section TaskStore.

Context {auth : AuthModule} {models : ModelDefaults}.

Lemma get_task_some (db : DB) (tid uid : Z) (t : Task) :
  get_task db tid uid = Some t ->
  In t (tasks db) /\ task_id t = tid /\ owner_id t = uid.
Proof.
  intros H. apply first_filter_some in H. destruct H as [Hin Hkey].
  apply andb_true_iff in Hkey. destruct Hkey as [H1 H2].
  apply Z.eqb_eq in H1, H2. auto.
Qed.

Lemma update_task_found (db : DB) (tid uid : Z) (upd : TaskUpdate) (t : Task) :
  get_task db tid uid = Some t ->
  update_task db tid uid upd =
    (Some (updated_row upd t), commit_update db (updated_row upd t)) /\
  get_task (commit_update db (updated_row upd t)) tid uid =
    Some (updated_row upd t).
Proof.
  intros Hget. split.
  - unfold update_task. rewrite Hget, setattr_loop. reflexivity.
  - pose proof Hget as Hfind. unfold get_task in Hfind.
    rewrite first_filter_find in Hfind.
    pose proof (find_some _ _ Hfind) as [_ Hkey].
    unfold get_task, commit_update. simpl. rewrite first_filter_find.
    eapply find_after_rewrite; [exact Hfind | reflexivity | exact Hkey].
Qed.

Lemma update_task_keeps_keys (db : DB) (tid uid : Z) (upd : TaskUpdate) :
  map task_id (tasks (snd (update_task db tid uid upd))) = map task_id (tasks db) /\
  users (snd (update_task db tid uid upd)) = users db /\
  next_task_id (snd (update_task db tid uid upd)) = next_task_id db /\
  next_user_id (snd (update_task db tid uid upd)) = next_user_id db.
Proof.
  destruct (get_task db tid uid) as [t|] eqn:Hget.
  - destruct (update_task_found db tid uid upd t Hget) as [-> _]. simpl.
    split; [|auto]. apply map_key_rewrite. reflexivity.
  - unfold update_task. rewrite Hget. auto.
Qed.

(** X6. Every operation that writes to the store keeps the primary keys in
    order: after register, create, update or delete, accepted or rejected,
    no two rows of a table share an id and every id in use is below the
    next id the table hands out. *)
Theorem writes_keep_primary_keys
  (db : DB) (user : UserCreate) (task : TaskCreate) (cu : User)
  (tid : Z) (upd : TaskUpdate) :
  keys_ok db = true ->
  keys_ok (snd (register user db)) = true /\
  keys_ok (snd (create_new_task task cu db)) = true /\
  keys_ok (snd (update_single_task tid upd cu db)) = true /\
  keys_ok (snd (delete_single_task tid cu db)) = true.
Proof.
  intros Hok. pose proof Hok as Hspec.
  apply keys_ok_spec in Hspec. destruct Hspec as [[Htn Htb] [Hun Hub]].
  split; [|split; [|split]].
  - unfold register.
    destruct (get_user_by_email db (uc_email user)); [exact Hok|].
    apply keys_ok_spec. unfold create_user. simpl.
    split; [auto|].
    apply NoDup_snoc_fresh; auto.
  - apply keys_ok_spec. unfold create_new_task, create_task. simpl.
    split; [|auto].
    apply NoDup_snoc_fresh; auto.
  - assert (E : snd (update_single_task tid upd cu db) =
                snd (update_task db tid (user_id cu) upd)).
    { unfold update_single_task.
      destruct (update_task db tid (user_id cu) upd) as [[r|] d]; reflexivity. }
    rewrite E. apply keys_ok_spec.
    destruct (update_task_keeps_keys db tid (user_id cu) upd)
      as [Hids [Husers [Hnt Hnu]]].
    rewrite Husers, Hnt, Hnu, Forall_key_map, Hids, <- Forall_key_map. auto.
  - unfold delete_single_task, delete_task.
    destruct (get_task db tid (user_id cu)) as [t|]; [|exact Hok].
    apply keys_ok_spec. simpl. split; [|auto]. split.
    + apply NoDup_map_filter. exact Htn.
    + rewrite Forall_forall in *. intros r Hr.
      apply filter_In in Hr. apply Htb. tauto.
Qed.

End TaskStore.

Section Isolation.

Context {auth : AuthModule} {models : ModelDefaults}.








End Isolation.

Section Lifecycle.

Context {auth : AuthModule} {models : ModelDefaults}.




Lemma deleted_id_absent (k : Z) (l : list Task) :
  existsb (fun t => task_id t =? k)
          (filter (fun t => negb (task_id t =? k)) l) = false.
Proof.
  induction l as [|x l IH]; simpl; [reflexivity|].
  destruct (task_id x =? k) eqn:E; simpl; [exact IH|].
  rewrite E. exact IH.
Qed.

(** X9. Delete then read.  When the requester owns task [tid], the delete
    request answers "Task deleted successfully" and removes exactly the
    rows with that id, leaving the users table as it was; afterwards no
    row has the id, and a read, update or delete of [tid] by any user,
    the former owner included, is answered 404. *)
Theorem delete_then_gone (db : DB) (tid : Z) (cu : User) (t : Task) :
  get_task db tid (user_id cu) = Some t ->
  fst (delete_single_task tid cu db) =
    Returned (mkMessage "Task deleted successfully") /\
  tasks (snd (delete_single_task tid cu db)) =
    filter (fun r => negb (task_id r =? tid)) (tasks db) /\
  users (snd (delete_single_task tid cu db)) = users db /\
  task_exists (snd (delete_single_task tid cu db)) tid = false /\
  (forall v upd,
     get_single_task tid v (snd (delete_single_task tid cu db)) =
       Raised not_found /\
     fst (update_single_task tid upd v (snd (delete_single_task tid cu db))) =
       Raised not_found /\
     delete_single_task tid v (snd (delete_single_task tid cu db)) =
       (Raised not_found, snd (delete_single_task tid cu db))).
Proof.
  intros Hget. destruct (get_task_some _ _ _ _ Hget) as [_ [Hid _]].
  unfold delete_single_task at 1 2 3 4, delete_task. rewrite Hget, Hid. simpl.
  assert (Hgone : task_exists (snd (delete_single_task tid cu db)) tid = false).
  { unfold delete_single_task, delete_task. rewrite Hget, Hid. simpl.
    apply deleted_id_absent. }
  repeat split; try reflexivity.
  - apply deleted_id_absent.
  - apply (gate_rejects _ tid v upd), absent_not_owned, Hgone.
  - destruct (gate_rejects _ tid v upd
                (absent_not_owned _ tid (user_id v) Hgone)) as [_ [-> _]].
    reflexivity.
  - apply (gate_rejects _ tid v upd), absent_not_owned, Hgone.
Qed.

(** X10. Two updates in a row.  When the requester owns the task, a second
    update is applied to what the first one stored: each of title,
    description and status ends with the value of the second request where
    it sets the field, else of the first request where that sets it, else
    the value stored at the start; id, owner and creation time are those
    of the original row. *)
Theorem updates_compose
  (db : DB) (tid : Z) (cu : User) (upd1 upd2 : TaskUpdate) (t : Task) :
  get_task db tid (user_id cu) = Some t ->
  exists t1 db1 t2 db2,
    update_single_task tid upd1 cu db = (Returned t1, db1) /\
    update_single_task tid upd2 cu db1 = (Returned t2, db2) /\
    get_single_task tid cu db2 = Returned t2 /\
    title t2 = applied (tu_title upd2) (applied (tu_title upd1) (title t)) /\
    description t2 =
      applied (tu_description upd2) (applied (tu_description upd1) (description t)) /\
    status t2 = applied (tu_status upd2) (applied (tu_status upd1) (status t)) /\
    task_id t2 = task_id t /\ owner_id t2 = owner_id t /\
    created_at t2 = created_at t.
Proof.
  intros Hget.
  destruct (update_task_found db tid (user_id cu) upd1 t Hget) as [Hrun1 Hget1].
  destruct (update_task_found _ tid (user_id cu) upd2 _ Hget1) as [Hrun2 Hget2].
  exists (updated_row upd1 t), (commit_update db (updated_row upd1 t)),
         (updated_row upd2 (updated_row upd1 t)),
         (commit_update (commit_update db (updated_row upd1 t))
                        (updated_row upd2 (updated_row upd1 t))).
  unfold update_single_task, get_single_task.
  rewrite Hrun1, Hrun2, Hget2. repeat split.
Qed.

End Lifecycle.

(** ** Listing and search *)

Lemma firstn_pages {A : Type} (n m : nat) (l : list A) :
  firstn n l ++ firstn m (skipn n l) = firstn (n + m) l.
Proof.
  revert l. induction n as [|n IH]; intros l; simpl; [reflexivity|].
  destruct l as [|x l]; simpl.
  - rewrite firstn_nil. reflexivity.
  - rewrite IH. reflexivity.
Qed.

Lemma like_percent_all (s : list ascii) : like ["%"%char] s = true.
Proof.
  induction s as [|c s IH]; [reflexivity|].
  rewrite like_cons. simpl. exact IH.
Qed.

Lemma like_fold_prefix (p m b : list ascii) :
  map lower p = map lower m ->
  like (p ++ ["%"%char]) (m ++ b) = true.
Proof.
  revert m. induction p as [|c p IH]; intros [|d m] Hfold;
    try discriminate; simpl app.
  - apply like_percent_all.
  - simpl in Hfold. injection Hfold as Hcd Hrest.
    rewrite like_cons.
    destruct (Ascii.eqb c "%"%char).
    + rewrite (like_percent_intro _ _ (IH m Hrest)). apply orb_true_r.
    + destruct (Ascii.eqb c "_"%char); [apply IH; exact Hrest|].
      rewrite Hcd, Ascii.eqb_refl, (IH m Hrest). reflexivity.
Qed.

Lemma like_skip (a q r : list ascii) :
  like ("%"%char :: q) r = true -> like ("%"%char :: q) (a ++ r) = true.
Proof.
  intros H. induction a as [|x a IH]; [exact H|].
  simpl app. rewrite like_cons, Ascii.eqb_refl, IH. apply orb_true_r.
Qed.

Lemma ilike_infix (s a m b : string) :
  casefold m = casefold s ->
  ilike (Some (a ++ m ++ b)%string) ("%" ++ s ++ "%")%string = true.
Proof.
  unfold casefold, ilike. intros Hfold.
  rewrite !list_ascii_of_string_append.
  change (list_ascii_of_string "%") with ["%"%char]. simpl app.
  apply like_skip, like_percent_intro, like_fold_prefix. auto.
Qed.

Section Listing.

Context {auth : AuthModule} {models : ModelDefaults}.

(** X11. Paging of [get_user_tasks].  The page of [n] rows at offset [skip]
    followed by the page of [m] rows at offset [skip + n] is the page of
    [n + m] rows at offset [skip], with no row lost or repeated; a limit of
    0 and an offset at or past the number of owned rows give the empty
    list. *)
Theorem pages_concatenate (db : DB) (owner : Z) (skip n m : nat) :
  get_user_tasks db owner skip n ++ get_user_tasks db owner (skip + n) m =
    get_user_tasks db owner skip (n + m) /\
  get_user_tasks db owner skip 0 = [] /\
  ((List.length (filter (fun t => Z.eqb (owner_id t) owner) (tasks db)) <= skip)%nat ->
   get_user_tasks db owner skip n = []).
Proof.
  unfold get_user_tasks. split; [|split].
  - rewrite (Nat.add_comm skip n), <- skipn_skipn. apply firstn_pages.
  - reflexivity.
  - intros Hlen. rewrite skipn_all2 by exact Hlen. apply firstn_nil.
Qed.

(** X12. A requester who owns at most 100 tasks gets all of them, in storage
    order, from the list route without a search term. *)
Theorem list_is_complete_up_to_hundred (cu : User) (db : DB) :
  (List.length (filter (fun t => Z.eqb (owner_id t) (user_id cu)) (tasks db)) <= 100)%nat ->
  list_tasks None cu db = filter (fun t => owner_id t =? user_id cu) (tasks db).
Proof.
  intros Hlen. unfold list_tasks, get_user_tasks.
  rewrite skipn_O. apply firstn_all2. exact Hlen.
Qed.

(** X13. Search is a case-insensitive substring match on the title: a stored
    task of the requester whose title contains the search term, in any
    mix of upper and lower case, is among the results of the list route
    called with that term. *)
Theorem search_finds_titles_containing_term
  (db : DB) (cu : User) (s a m b : string) (t : Task) :
  truthy s = true ->
  In t (tasks db) ->
  owner_id t = user_id cu ->
  title t = Some (a ++ m ++ b)%string ->
  casefold m = casefold s ->
  In t (list_tasks (Some s) cu db).
Proof.
  intros Hs Hin Howner Htitle Hfold.
  unfold list_tasks. rewrite Hs. unfold search_tasks.
  apply filter_In. split; [exact Hin|].
  rewrite Howner, Z.eqb_refl, Htitle, (ilike_infix s a m b Hfold). reflexivity.
Qed.

(** X14. The search term is put into the pattern as it is, so a percent sign
    in it is a wildcard: the list route called with the term "%" returns
    every task of the requester that has a title, however many there
    are. *)
Theorem percent_search_returns_all_titled (cu : User) (db : DB) :
  list_tasks (Some "%") cu db =
  filter (fun t => (owner_id t =? user_id cu) &&
                   match title t with Some _ => true | None => false end)%bool
         (tasks db).
Proof.
  unfold list_tasks, search_tasks. simpl truthy. cbv iota.
  apply filter_ext. intros t. f_equal.
  unfold ilike. destruct (title t) as [s|]; [|reflexivity].
  change (list_ascii_of_string ("%" ++ "%" ++ "%"))
    with ["%"%char; "%"%char; "%"%char].
  apply like_percent_intro, like_percent_intro, like_percent_all.
Qed.

End Listing.

Section Endpoints.

Context {auth : AuthModule} {models : ModelDefaults}.
Variable settings : Settings.

Lemma get_current_user_raises_401 (token : string) (db : DB) (e : HTTPException) :
  get_current_user token db = Raised e -> status_code e = 401.
Proof.
  unfold get_current_user.
  destruct (decode_token token) as [s|]; [|intros [= <-]; reflexivity].
  destruct (truthy s); simpl; [|intros [= <-]; reflexivity].
  destruct (first (filter (fun u => String.eqb (email u) s) (users db)));
    [discriminate | intros [= <-]; reflexivity].
Qed.

(** X15. The resolver binds a token to a stored user with the token's subject:
    when [get_current_user] returns [u], the token decodes to a non-empty
    subject, [u] is a row of the users table, the email of [u] is that
    subject, and [u] is the user that [get_user_by_email] finds for it. *)
Theorem resolved_user_matches_token_subject (token : string) (db : DB) (u : User) :
  get_current_user token db = Returned u ->
  exists e,
    decode_token token = Some e /\ truthy e = true /\
    In u (users db) /\ email u = e /\
    get_user_by_email db e = Some u.
Proof.
  unfold get_current_user. intros H.
  destruct (decode_token token) as [e|]; [|discriminate].
  destruct (truthy e) eqn:He; simpl in H; [|discriminate].
  destruct (first (filter (fun x => String.eqb (email x) e) (users db)))
    as [x|] eqn:Hx; [|discriminate].
  injection H as ->. exists e.
  pose proof (get_user_by_email_some db e u Hx) as [Hin Hemail].
  repeat split; auto.
Qed.

(** X16. Fail closed.  When the bearer token resolves to no user, each of the
    six routes behind the dependency answers with the resolver's exception,
    whose status is 401, and returns the store as it was: no handler runs,
    nothing is read out and nothing is written. *)
Theorem protected_routes_fail_closed (token : string) (db : DB) :
  (forall u, get_current_user token db <> Returned u) ->
  exists e,
    status_code e = 401 /\
    GET_me token db = (Raised e, db) /\
    (forall task, POST_task token task db = (Raised e, db)) /\
    (forall search, GET_tasks token search db = (Raised e, db)) /\
    (forall tid, GET_task token tid db = (Raised e, db)) /\
    (forall tid upd, PUT_task token tid upd db = (Raised e, db)) /\
    (forall tid, DELETE_task token tid db = (Raised e, db)).
Proof.
  intros Hnone.
  destruct (get_current_user token db) as [u|e] eqn:Hres;
    [exfalso; apply (Hnone u); reflexivity|].
  exists e. split; [eapply get_current_user_raises_401; exact Hres|].
  unfold GET_me, POST_task, GET_tasks, GET_task, PUT_task, DELETE_task, Depends.
  rewrite Hres. repeat split.
Qed.

(** X17. Register, log in, ask who I am.  When the password codec verifies a
    password against its own hash and the token service decodes the token
    it issues for an email back to that email, a user who registers an
    unused, non-empty email and logs in with the same password receives a
    bearer token with which the profile route returns exactly the user
    record that register returned. *)
Theorem register_login_profile (user : UserCreate) (db : DB) :
  email_registered db (uc_email user) = false ->
  truthy (uc_email user) = true ->
  verify_password (uc_password user) (get_password_hash (uc_password user)) = true ->
  decode_token (create_access_token (uc_email user)
                                    (ACCESS_TOKEN_EXPIRE_MINUTES settings))
    = Some (uc_email user) ->
  exists u db' token,
    register user db = (Returned u, db') /\
    login settings (mkLoginRequest (uc_email user) (uc_password user)) db' =
      Returned token /\
    token_type token = "bearer" /\
    GET_me (access_token token) db' = (Returned u, db') /\
    email u = uc_email user.
Proof.
  intros Hfresh Hnonempty Hcodec Htoken.
  pose proof Hfresh as Hnone. apply get_user_by_email_none in Hnone.
  pose proof (lookup_after_create_user user db (uc_email user)) as Hfound.
  rewrite Hnone, String.eqb_refl in Hfound.
  exists (fst (create_user db user)), (snd (create_user db user)),
         (mkToken (create_access_token (uc_email user)
                                       (ACCESS_TOKEN_EXPIRE_MINUTES settings))
                  "bearer").
  split; [apply register_fresh; exact Hfresh|].
  split.
  - unfold login, authenticate_user. cbn [lr_email lr_password].
    rewrite Hfound. cbn [create_user fst hashed_password email].
    rewrite Hcodec. reflexivity.
  - split; [reflexivity|]. split; [|reflexivity].
    unfold GET_me, Depends, get_current_user, get_profile.
    cbn [access_token]. rewrite Htoken, Hnonempty. cbn [negb].
    unfold get_user_by_email in Hfound. rewrite Hfound. reflexivity.
Qed.

End Endpoints.

(** ** main.py: the allowed origins *)

Lemma split_comma_nonempty (s : string) : split_comma s <> [].
Proof.
  destruct s as [|c s]; simpl; [discriminate|].
  destruct (Ascii.eqb c ","%char); [discriminate|].
  destruct (split_comma s); discriminate.
Qed.

(** X19. The origins handed to the CORS middleware are the pieces of the
    setting between its commas, taken as they are: no piece contains a
    comma, there is at least one piece (the empty setting gives one empty
    origin), and joining the pieces with commas gives back the setting, so
    no character is trimmed or dropped. *)
Theorem allow_origins_round_trip (CORS_ORIGINS : string) :
  String.concat "," (allow_origins CORS_ORIGINS) = CORS_ORIGINS /\
  Forall (fun origin => has_comma origin = false) (allow_origins CORS_ORIGINS) /\
  allow_origins CORS_ORIGINS <> [] /\
  allow_origins "" = [""].
Proof.
  unfold allow_origins.
  split; [|split; [|split; [apply split_comma_nonempty | reflexivity]]].
  - induction CORS_ORIGINS as [|c s IH]; [reflexivity|].
    simpl split_comma.
    destruct (Ascii.eqb c ","%char) eqn:Hc.
    + apply Ascii.eqb_eq in Hc. subst c.
      pose proof (split_comma_nonempty s) as Hne.
      destruct (split_comma s) as [|piece pieces]; [contradiction|].
      simpl in *. rewrite IH. reflexivity.
    + pose proof (split_comma_nonempty s) as Hne.
      destruct (split_comma s) as [|piece pieces]; [contradiction|].
      destruct pieces as [|next pieces]; simpl in *; rewrite <- IH; reflexivity.
  - induction CORS_ORIGINS as [|c s IH]; simpl.
    + constructor; [reflexivity|constructor].
    + destruct (Ascii.eqb c ","%char) eqn:Hc.
      * constructor; [reflexivity | exact IH].
      * destruct (split_comma s) as [|piece pieces];
          [constructor; [simpl; rewrite Hc; reflexivity | constructor]|].
        inversion IH as [|x l Hpiece Hrest]; subst.
        constructor; [simpl; rewrite Hc; exact Hpiece | exact Hrest].
Qed.

Section CreateAndList.

Context {auth : AuthModule} {models : ModelDefaults}.

(** X18. Create then list.  The created task is appended after the requester's
    other tasks.  While the requester owned fewer than 100 tasks, the
    listing after the create is the listing before it followed by the new
    task; once the requester owns 100 or more, the listing after the create
    is the listing before it and the new task is not in it. *)
Theorem create_then_list (task : TaskCreate) (cu : User) (db : DB) :
  ((List.length (filter (fun t => Z.eqb (owner_id t) (user_id cu)) (tasks db)) < 100)%nat ->
   list_tasks None cu (snd (create_new_task task cu db)) =
     list_tasks None cu db ++ [fst (create_new_task task cu db)]) /\
  ((100 <= List.length (filter (fun t => Z.eqb (owner_id t) (user_id cu)) (tasks db)))%nat ->
   list_tasks None cu (snd (create_new_task task cu db)) =
     list_tasks None cu db).
Proof.
  unfold list_tasks, get_user_tasks, create_new_task, create_task.
  cbn [snd fst tasks]. rewrite !skipn_O, filter_app.
  cbn [filter owner_id]. rewrite Z.eqb_refl, firstn_app.
  split; intros Hlen.
  - rewrite (firstn_all2 (n := 100)) by lia.
    destruct (100 - _)%nat eqn:E; [lia|]. simpl. rewrite firstn_nil. reflexivity.
  - replace (100 - _)%nat with 0%nat by lia.
    simpl. apply app_nil_r.
Qed.

End CreateAndList.

(** ** The further theorems at concrete stores *)

Lemma register_then_lookup_witness :
  exists u db',
    @register toy_auth toy_models carol_signup toy_db = (Returned u, db') /\
    @get_user_by_email db' "carol@example.com" = Some u /\
    user_id u = 3.
Proof.
  destruct (register_then_lookup (auth := toy_auth) (models := toy_models)
              carol_signup toy_db eq_refl)
    as [u [db' [Hreg [[Hid _] [_ [_ [Hfound _]]]]]]].
  exists u, db'. repeat split; assumption.
Defined.

Lemma register_keeps_emails_unique_witness :
  emails_unique (snd (@register toy_auth toy_models carol_signup toy_db)) = true.
Proof.
  apply (register_keeps_emails_unique (auth := toy_auth) (models := toy_models)
           carol_signup toy_db eq_refl).
Defined.

Lemma register_twice_is_rejected_witness :
  @register toy_auth toy_models
            (mkUserCreate "carol@example.com" "Caroline" "other")
            (snd (@register toy_auth toy_models carol_signup toy_db)) =
  (Raised (mkHTTPException 400 "Email already registered"),
   snd (@register toy_auth toy_models carol_signup toy_db)).
Proof.
  apply (register_twice_is_rejected (auth := toy_auth) (models := toy_models)
           carol_signup (mkUserCreate "carol@example.com" "Caroline" "other")
           toy_db eq_refl eq_refl).
Defined.

Lemma register_then_login_witness :
  @login toy_auth default_settings
         (mkLoginRequest "carol@example.com" "singer") toy_db =
    Raised (unauthorized "Invalid credentials") /\
  @login toy_auth default_settings
         (mkLoginRequest "carol@example.com" "singer")
         (snd (@register toy_auth toy_models carol_signup toy_db)) =
    Returned (mkToken "tok:carol@example.com" "bearer").
Proof.
  apply (register_then_login (auth := toy_auth) (models := toy_models)
           default_settings carol_signup toy_db eq_refl eq_refl).
Defined.

Lemma login_token_implies_stored_user_witness :
  exists u, In u (users toy_db) /\ email u = "alice@example.com".
Proof.
  destruct (login_token_implies_stored_user (auth := toy_auth)
              default_settings
              (mkLoginRequest "alice@example.com" "wonder") toy_db
              (mkToken "tok:alice@example.com" "bearer") eq_refl)
    as [u [Hin [Hemail _]]].
  exists u. split; assumption.
Defined.

Lemma writes_keep_primary_keys_witness :
  keys_ok toy_db = true /\
  keys_ok (snd (@create_new_task toy_models (mkTaskCreate "Plan" None) bob toy_db))
  = true.
Proof.
  split; [reflexivity|].
  apply (writes_keep_primary_keys (auth := toy_auth) (models := toy_models)
           toy_db carol_signup (mkTaskCreate "Plan" None) bob 1
           (mkTaskUpdate None None None) eq_refl).
Defined.



Lemma delete_then_gone_witness :
  fst (delete_single_task 1 alice toy_db) =
    Returned (mkMessage "Task deleted successfully") /\
  task_exists (snd (delete_single_task 1 alice toy_db)) 1 = false.
Proof.
  destruct (delete_then_gone (models := toy_models) toy_db 1 alice alice_task
              eq_refl)
    as [Hmsg [_ [_ [Hgone _]]]].
  split; assumption.
Defined.

Lemma updates_compose_witness :
  exists t1 db1 t2 db2,
    @update_single_task toy_models 1
      (mkTaskUpdate (Some (Some "Summary")) None None) alice toy_db =
      (Returned t1, db1) /\
    @update_single_task toy_models 1
      (mkTaskUpdate None None (Some (Some "done"))) alice db1 =
      (Returned t2, db2) /\
    title t2 = Some "Summary" /\ status t2 = Some "done".
Proof.
  destruct (updates_compose (models := toy_models) toy_db 1 alice
              (mkTaskUpdate (Some (Some "Summary")) None None)
              (mkTaskUpdate None None (Some (Some "done"))) alice_task eq_refl)
    as [t1 [db1 [t2 [db2 [H1 [H2 [_ [Ht [_ [Hs _]]]]]]]]]].
  exists t1, db1, t2, db2. repeat split; assumption.
Defined.

Lemma pages_concatenate_witness :
  get_user_tasks toy_db 1 5 3 = [].
Proof.
  apply (proj2 (proj2 (pages_concatenate toy_db 1 5 3 0))).
  simpl. lia.
Defined.

Lemma list_is_complete_up_to_hundred_witness :
  list_tasks None alice toy_db = [alice_task].
Proof.
  apply (list_is_complete_up_to_hundred alice toy_db). simpl. lia.
Defined.

Lemma search_finds_titles_containing_term_witness :
  In alice_task (list_tasks (Some "PORT") alice toy_db).
Proof.
  apply (search_finds_titles_containing_term
           toy_db alice "PORT" "Re" "port" "" alice_task);
    try reflexivity.
  simpl. auto.
Defined.

Lemma resolved_user_matches_token_subject_witness :
  exists e, @decode_token toy_auth "tok:bob@example.com" = Some e /\ email bob = e.
Proof.
  destruct (resolved_user_matches_token_subject (auth := toy_auth)
              "tok:bob@example.com" toy_db bob eq_refl)
    as [e [Hdec [_ [_ [Hemail _]]]]].
  exists e. split; assumption.
Defined.

Lemma protected_routes_fail_closed_witness :
  exists e,
    status_code e = 401 /\
    @DELETE_task toy_auth "garbage" 1 toy_db = (Raised e, toy_db).
Proof.
  destruct (protected_routes_fail_closed (auth := toy_auth) (models := toy_models)
              "garbage" toy_db
              ltac:(intros u H; discriminate H))
    as [e [Hstatus [_ [_ [_ [_ [_ Hdel]]]]]]].
  exists e. split; [exact Hstatus | apply Hdel].
Defined.

Lemma register_login_profile_witness :
  exists u db' token,
    @register toy_auth toy_models carol_signup toy_db = (Returned u, db') /\
    @GET_me toy_auth (access_token token) db' = (Returned u, db') /\
    email u = "carol@example.com".
Proof.
  destruct (register_login_profile (auth := toy_auth) (models := toy_models)
              default_settings carol_signup toy_db
              eq_refl eq_refl eq_refl eq_refl)
    as [u [db' [token [Hreg [_ [_ [Hme Hemail]]]]]]].
  exists u, db', token. repeat split; assumption.
Defined.

Lemma create_then_list_witness :
  list_tasks None alice
    (snd (@create_new_task toy_models (mkTaskCreate "Plan" None) alice toy_db)) =
  list_tasks None alice toy_db ++
    [fst (@create_new_task toy_models (mkTaskCreate "Plan" None) alice toy_db)].
Proof.
  apply (proj1 (create_then_list (models := toy_models)
                  (mkTaskCreate "Plan" None) alice toy_db)).
  simpl. lia.
Defined.
